(** * libmushu.amplifier: the [Amplifier] base class

    A shallow embedding of [src/libmushu/amplifier.py] and the properties of
    the driver contract that can be settled on it.

    The module holds one class, [Amplifier(object)], with eight methods and
    no [__init__]: four lifecycle methods and [get_data] whose body is
    [pass], two capability queries and the static probe [is_available]
    whose body is [raise NotImplementedError].

    Python objects live in a heap that every call threads through; a method
    is a computation in a state-and-exception monad over that heap. *)

From Stdlib Require Import ZArith String List.
From stdpp Require Import base option list gmap strings.

Local Open Scope Z_scope.

(** ** Python values *)

(** The values a caller can pass to, or get back from, the class.  [VArray]
    stands for a two-dimensional numpy array, rows being time samples and
    columns channels; sample values are kept as integers because nothing
    below depends on them. *)
#[warnings="-register-all"]
Inductive Value : Type :=
  | VNone
  | VBool (b : bool)
  | VInt (n : Z)
  | VStr (s : string)
  | VList (xs : list Value)
  | VTuple (xs : list Value)
  | VDict (kvs : list (string * Value))
  | VArray (rows : list (list Z)).

(** ** Exceptions *)

(** [NotImplementedError] is the Python builtin and the only exception the
    module raises.  The other constructors are the error kinds the driver
    contract names; the module neither defines nor raises any of them. *)
Inductive Exception : Type :=
  | NotImplementedError
  | ConfigurationError
  | InvalidStateError
  | NotConfiguredError
  | HardwareUnavailableError
  | HardwareError
  | DataOverflowError
  | NotSupportedError.

(** ** Heap and computations *)

(** An object reference, and the heap: every live instance with its
    attribute dictionary ([__dict__]). *)
Definition Ref : Type := positive.
Definition Heap : Type := gmap positive (gmap string Value).

(** How a call ends: with a value, or with a raised exception. *)
Inductive Outcome (A : Type) : Type :=
  | Return (a : A)
  | Raise (e : Exception).
Arguments Return {A} a.
Arguments Raise {A} e.

Definition Py (A : Type) : Type := Heap -> Outcome A * Heap.

#[export] Instance Py_ret : MRet Py := fun A (a : A) (h : Heap) => (Return a, h).

#[export] Instance Py_bind : MBind Py :=
  fun A B (k : A -> Py B) (m : Py A) (h : Heap) =>
    match m h with
    | (Return a, h') => k a h'
    | (Raise e, h') => (Raise e, h')
    end.

(** The [pass] statement and the [raise] statement. *)
Definition pass : Py unit := mret tt.
Definition raise {A : Type} (e : Exception) : Py A := fun h => (Raise e, h).

(** ** The class *)

Module Amplifier.

(** [Amplifier()]: the class has no [__init__], so construction allocates
    an instance with an empty attribute dictionary. *)
Definition new : Py Ref :=
  fun h => let r := fresh (dom h) in (Return r, <[r := ∅]> h).

(** A body that is only [pass] falls off its end and returns [None]. *)
Definition configure (self : Ref) (config : Value) : Py Value :=
  pass ;; mret VNone.

Definition configure_with_gui (self : Ref) : Py Value :=
  pass ;; mret VNone.

Definition start (self : Ref) : Py Value :=
  pass ;; mret VNone.

Definition stop (self : Ref) : Py Value :=
  pass ;; mret VNone.

Definition get_data (self : Ref) : Py Value :=
  pass ;; mret VNone.

Definition get_channels (self : Ref) : Py Value :=
  raise NotImplementedError.

Definition get_sampling_frequency (self : Ref) : Py Value :=
  raise NotImplementedError.

(** [@staticmethod]: no [self]. *)
Definition is_available : Py Value :=
  raise NotImplementedError.

End Amplifier.

(** ** Callers *)

(** One call on an instance. *)
Inductive Call : Type :=
  | Configure (config : Value)
  | ConfigureWithGui
  | Start
  | Stop
  | GetData
  | GetChannels
  | GetSamplingFrequency
  | IsAvailable.

Definition invoke (self : Ref) (c : Call) : Py Value :=
  match c with
  | Configure config => Amplifier.configure self config
  | ConfigureWithGui => Amplifier.configure_with_gui self
  | Start => Amplifier.start self
  | Stop => Amplifier.stop self
  | GetData => Amplifier.get_data self
  | GetChannels => Amplifier.get_channels self
  | GetSamplingFrequency => Amplifier.get_sampling_frequency self
  | IsAvailable => Amplifier.is_available
  end.

(** A caller that makes the calls [cs] in order on one instance, each inside
    its own [try]/[except], and records how each one ended. *)
Fixpoint run (self : Ref) (cs : list Call) (h : Heap)
  : list (Outcome Value) * Heap :=
  match cs with
  | [] => ([], h)
  | c :: cs' =>
      let '(o, h1) := invoke self c h in
      let '(os, h2) := run self cs' h1 in
      (o :: os, h2)
  end.

(** The history of a run: each call with its outcome. *)
Definition history (self : Ref) (cs : list Call) (h : Heap)
  : list (Call * Outcome Value) :=
  zip cs (fst (run self cs h)).

(** The four lifecycle methods. *)
Definition is_lifecycle (c : Call) : bool :=
  match c with
  | Configure _ | ConfigureWithGui | Start | Stop => true
  | _ => false
  end.

(** What the docstring of [get_data] promises as return value: "a numpy
    array (time, channels) and a list of markers". *)
Definition is_data_and_markers (v : Value) : bool :=
  match v with
  | VTuple [VArray _; VList _] => true
  | _ => false
  end.

(** ** The lifecycle of the driver contract *)

(** The class keeps no lifecycle state of its own.  The contract's words
    for it (Idle, Configured, Streaming) are read off the history of calls:
    this module follows the transition list of the specification (its
    section 4.1), not the source, and is what the lifecycle claims are stated
    against. *)
Module Contract.

Inductive AmpState : Type :=
  | Idle
  | Configured
  | Streaming.

(** Idle --configure--> Configured, Configured --start--> Streaming,
    Streaming --stop--> Idle, each on success; a failed call and every other
    call leave the state where it is. *)
Definition step (q : AmpState) (ev : Call * Outcome Value) : AmpState :=
  match ev with
  | (_, Raise _) => q
  | (c, Return _) =>
      match q, c with
      | Idle, Configure _ => Configured
      | Configured, Start => Streaming
      | Streaming, Stop => Idle
      | _, _ => q
      end
  end.

(** A new driver is Idle. *)
Definition state_after (tr : list (Call * Outcome Value)) : AmpState :=
  fold_left step tr Idle.

(** Has some [configure] succeeded so far? *)
Definition configured_before (tr : list (Call * Outcome Value)) : bool :=
  existsb (fun ev => match ev with
                     | (Configure _, Return _) => true
                     | _ => false
                     end) tr.

End Contract.

(** ** Concrete inputs *)

(** The heap right after [amp = Amplifier()] in an empty process, and the
    instance. *)
Definition heap0 : Heap := snd (Amplifier.new ∅).
Definition amp0 : Ref := fresh (dom (∅ : Heap)).

(** A configuration as a caller would write it. *)
Definition cfg0 : Value :=
  VDict [("mode"%string, VStr "data"); ("freq"%string, VInt 256)].

(** Call sequences: one that mixes all kinds of calls in no sensible order,
    one without any [configure], one that ends in the middle of a streaming
    session, and one that has just configured. *)
Definition calls_any_order : list Call :=
  [Start; Configure cfg0; GetChannels; Stop; Stop; ConfigureWithGui;
   Configure (VInt 7); Start].

Definition calls_unconfigured : list Call :=
  [ConfigureWithGui; Stop; GetChannels].

Definition calls_streaming : list Call :=
  [Configure cfg0; Start; GetData; GetData].

Definition calls_configured : list Call :=
  [Configure cfg0].

(** The outcome of each method of the base class, as a table; [invoke_base]
    below checks it against the methods. *)
Definition base_outcome (c : Call) : Outcome Value :=
  match c with
  | GetChannels | GetSamplingFrequency | IsAvailable => Raise NotImplementedError
  | _ => Return VNone
  end.

(** ** Callers that let exceptions propagate *)

(** The three methods whose body is [raise NotImplementedError]. *)
Definition is_query (c : Call) : bool :=
  match c with
  | GetChannels | GetSamplingFrequency | IsAvailable => true
  | _ => false
  end.

(** A straight-line caller: the calls [cs] one after the other with no
    [try]/[except], so the first exception ends the whole sequence. *)
Fixpoint script (self : Ref) (cs : list Call) : Py (list Value) :=
  match cs with
  | [] => mret []
  | c :: cs' =>
      v ← invoke self c;
      vs ← script self cs';
      mret (v :: vs)
  end.

(** The poll loop of the class docstring,

      while 1:
          data = amp.get_data()
          if enough:
              break

    [enough] is the caller's own condition; it is handed how many polls
    have been made and the data of the last one.  [fuel] bounds the number
    of iterations: [None] says the loop is still running when it is used up,
    [Some (n, data)] that the loop was left after [n] polls with [data] in
    hand. *)
Fixpoint poll_until (fuel : nat) (enough : nat -> Value -> bool)
    (self : Ref) (polled : nat) : Py (option (nat * Value)) :=
  match fuel with
  | O => mret None
  | S fuel' =>
      data ← Amplifier.get_data self;
      if enough (S polled) data
      then mret (Some (S polled, data))
      else poll_until fuel' enough self (S polled)
  end.

(** "How an amplifier should be used", from the class docstring, with the
    base class itself in the place of [Amp]: an impedance session, then a
    data session that asks for the channels before it starts.  The two
    sessions may pass different configurations and stop on different
    conditions.  The result is [None] while one of the loops is still
    running and [Some channels] when the last [stop()] has returned. *)
Definition usage (fuel : nat) (config1 config2 : Value)
    (enough1 enough2 : nat -> Value -> bool) : Py (option Value) :=
  amp ← Amplifier.new;
  Amplifier.configure amp config1;;
  Amplifier.start amp;;
  r1 ← poll_until fuel enough1 amp 0%nat;
  match r1 with
  | None => mret None
  | Some _ =>
      Amplifier.stop amp;;
      Amplifier.configure amp config2;;
      channels ← Amplifier.get_channels amp;
      Amplifier.start amp;;
      r2 ← poll_until fuel enough2 amp 0%nat;
      match r2 with
      | None => mret None
      | Some _ =>
          Amplifier.stop amp;;
          mret (Some channels)
      end
  end.

(** Two calls of the same method, whatever their arguments. *)
Definition same_method (c c' : Call) : bool :=
  match c, c' with
  | Configure _, Configure _
  | ConfigureWithGui, ConfigureWithGui
  | Start, Start
  | Stop, Stop
  | GetData, GetData
  | GetChannels, GetChannels
  | GetSamplingFrequency, GetSamplingFrequency
  | IsAvailable, IsAvailable => true
  | _, _ => false
  end.

(** Callers' stop conditions: after the third poll; and once a poll has
    brought something. *)
Definition enough_after_three (polled : nat) (data : Value) : bool :=
  (3 <=? polled)%nat.

Definition enough_when_data (polled : nat) (data : Value) : bool :=
  match data with
  | VNone => false
  | _ => true
  end.

(** * Properties *)

(** ** What one call does *)

Example fresh_instance_has_empty_dict : heap0 !! amp0 = Some ∅.
Proof. reflexivity. Qed.

Example fresh_instance_poll :
  run amp0 [Configure cfg0; GetChannels; Start; GetData; Stop] heap0
  = ([Return VNone; Raise NotImplementedError; Return VNone; Return VNone;
      Return VNone], heap0).
Proof. reflexivity. Qed.

Lemma pass_body_returns_none (h : Heap) :
  (pass ;; mret VNone) h = (Return VNone, h).
Proof. reflexivity. Qed.

Lemma raise_keeps_heap {A : Type} (e : Exception) (h : Heap) :
  @raise A e h = (Raise e, h).
Proof. reflexivity. Qed.

(** Every method ends as [base_outcome] says and hands back the heap it
    was given. *)
Lemma invoke_base (self : Ref) (c : Call) (h : Heap) :
  invoke self c h = (base_outcome c, h).
Proof.
  destruct c; cbn [invoke base_outcome];
    first [ apply pass_body_returns_none | apply raise_keeps_heap ].
Qed.

Lemma invoke_frame (self : Ref) (c : Call) (h : Heap) :
  snd (invoke self c h) = h.
Proof. now rewrite invoke_base. Qed.

(** ** What a sequence of calls does *)

Lemma run_base (self : Ref) (cs : list Call) (h : Heap) :
  run self cs h = (map base_outcome cs, h).
Proof.
  revert h; induction cs as [|c cs IH]; intros h; cbn [run map].
  - reflexivity.
  - rewrite invoke_base, IH. reflexivity.
Qed.

Lemma run_frame (self : Ref) (cs : list Call) (h : Heap) :
  snd (run self cs h) = h.
Proof. now rewrite run_base. Qed.

Lemma run_outcomes_length (self : Ref) (cs : list Call) (h : Heap) :
  length (fst (run self cs h)) = length cs.
Proof. rewrite run_base. cbn [fst]. apply length_map. Qed.

Lemma run_outcome_at (self : Ref) (cs : list Call) (h : Heap) (i : nat) (c : Call) :
  cs !! i = Some c -> fst (run self cs h) !! i = Some (base_outcome c).
Proof.
  intros Hc. rewrite run_base. cbn [fst].
  rewrite list_lookup_fmap, Hc. reflexivity.
Qed.

Lemma lifecycle_outcome (c : Call) :
  is_lifecycle c = true -> base_outcome c = Return VNone.
Proof. destruct c; cbn; congruence. Qed.

(** ** The contract's state along a history *)

Lemma state_after_snoc (tr : list (Call * Outcome Value)) (ev : Call * Outcome Value) :
  Contract.state_after (tr ++ [ev]) = Contract.step (Contract.state_after tr) ev.
Proof. unfold Contract.state_after. now rewrite fold_left_app. Qed.

Lemma history_snoc (self : Ref) (cs : list Call) (c : Call) (h : Heap) :
  history self (cs ++ [c]) h = history self cs h ++ [(c, base_outcome c)].
Proof.
  unfold history. rewrite !run_base. cbn [fst].
  rewrite map_app. cbn [map].
  rewrite zip_with_app by (now rewrite length_map). reflexivity.
Qed.

(** ** Lifecycle methods of the base class *)

(** Claim C10.  In the base class [configure], [configure_with_gui], [start] and
    [stop] are silent no-ops: in any sequence of calls on an instance, from
    any heap and with any argument, every one of these four calls returns
    [None] without raising, and the heap at the end is the heap at the
    start. *)
Theorem lifecycle_methods_are_silent_noops
    (self : Ref) (cs : list Call) (h : Heap) :
  snd (run self cs h) = h
  /\ forall (i : nat) (c : Call),
       cs !! i = Some c ->
       is_lifecycle c = true ->
       fst (run self cs h) !! i = Some (Return VNone)
       /\ invoke self c h = (Return VNone, h).
Proof.
  split; [apply run_frame|].
  intros i c Hi Hc. split.
  - rewrite (run_outcome_at self cs h i c Hi).
    now rewrite (lifecycle_outcome c Hc).
  - rewrite invoke_base. now rewrite (lifecycle_outcome c Hc).
Qed.

Lemma lifecycle_methods_are_silent_noops_witness :
  calls_any_order !! 3%nat = Some Stop
  /\ is_lifecycle Stop = true
  /\ snd (run amp0 calls_any_order heap0) = heap0
  /\ fst (run amp0 calls_any_order heap0) !! 3%nat = Some (Return VNone)
  /\ invoke amp0 Stop heap0 = (Return VNone, heap0).
Proof.
  split; [reflexivity|]. split; [reflexivity|].
  split; [apply (lifecycle_methods_are_silent_noops amp0 calls_any_order heap0)|].
  apply (proj2 (lifecycle_methods_are_silent_noops amp0 calls_any_order heap0)
           3%nat Stop); reflexivity.
Defined.

(** Claim C2, amended to what the class does.  [start()] called on an instance no
    [configure] has succeeded on returns [None], raises nothing and leaves
    the heap as it was. *)
Theorem start_without_configure_returns_none
    (self : Ref) (cs : list Call) (h : Heap) :
  Contract.configured_before (history self cs h) = false ->
  Amplifier.start self (snd (run self cs h))
  = (Return VNone, snd (run self cs h)).
Proof. intros _. apply pass_body_returns_none. Qed.

Lemma start_without_configure_returns_none_witness :
  Contract.configured_before (history amp0 calls_unconfigured heap0) = false
  /\ Amplifier.start amp0 (snd (run amp0 calls_unconfigured heap0))
     = (Return VNone, snd (run amp0 calls_unconfigured heap0)).
Proof.
  split; [reflexivity|].
  apply (start_without_configure_returns_none amp0 calls_unconfigured heap0).
  reflexivity.
Defined.

(** Claim C2 as stated fails on a fresh instance: nothing has been configured,
    and [start()] returns [None] instead of raising [InvalidStateError] or
    [NotConfiguredError]. *)
Lemma start_without_configure_counterexample :
  Contract.configured_before (history amp0 [] heap0) = false
  /\ fst (Amplifier.start amp0 heap0) = Return VNone
  /\ ~ (fst (Amplifier.start amp0 heap0) = Raise InvalidStateError
        \/ fst (Amplifier.start amp0 heap0) = Raise NotConfiguredError).
Proof.
  split; [reflexivity|]. split; [reflexivity|].
  intros [H|H]; cbn in H; discriminate H.
Qed.

(** Claim C3, amended to what the class does.  [configure(cfg)] called while the history
    puts the driver in Streaming returns [None] for every [cfg], raises
    nothing and leaves the heap as it was. *)
Theorem configure_while_streaming_returns_none
    (self : Ref) (cs : list Call) (h : Heap) (cfg : Value) :
  Contract.state_after (history self cs h) = Contract.Streaming ->
  Amplifier.configure self cfg (snd (run self cs h))
  = (Return VNone, snd (run self cs h)).
Proof. intros _. apply pass_body_returns_none. Qed.

Lemma configure_while_streaming_returns_none_witness :
  Contract.state_after (history amp0 calls_streaming heap0) = Contract.Streaming
  /\ Amplifier.configure amp0 (VStr "impedance")
       (snd (run amp0 calls_streaming heap0))
     = (Return VNone, snd (run amp0 calls_streaming heap0)).
Proof.
  split; [reflexivity|].
  apply (configure_while_streaming_returns_none
           amp0 calls_streaming heap0 (VStr "impedance")).
  reflexivity.
Defined.

(** Claim C3 as stated fails in the middle of a streaming session on a fresh
    instance: the driver is Streaming and [configure(cfg0)] returns [None]
    instead of raising [InvalidStateError]. *)
Lemma configure_while_streaming_counterexample :
  Contract.state_after (history amp0 calls_streaming heap0) = Contract.Streaming
  /\ fst (Amplifier.configure amp0 cfg0 (snd (run amp0 calls_streaming heap0)))
     = Return VNone
  /\ fst (Amplifier.configure amp0 cfg0 (snd (run amp0 calls_streaming heap0)))
     <> Raise InvalidStateError.
Proof.
  split; [reflexivity|]. split; [reflexivity|].
  cbn. discriminate.
Qed.

(** ** Capability queries *)

(** Claim C4, amended to what the class does.  [get_channels()] and
    [get_sampling_frequency()] raise [NotImplementedError] after any
    sequence of calls, configured or not, and leave the heap as it was. *)
Theorem capability_queries_raise_not_implemented
    (self : Ref) (cs : list Call) (h : Heap) :
  Amplifier.get_channels self (snd (run self cs h))
  = (Raise NotImplementedError, snd (run self cs h))
  /\ Amplifier.get_sampling_frequency self (snd (run self cs h))
     = (Raise NotImplementedError, snd (run self cs h)).
Proof. split; apply raise_keeps_heap. Qed.

(** Claim C4 as stated fails on both halves.  On a fresh instance the two
    queries raise [NotImplementedError], not [NotConfiguredError]; and once
    Configured they still raise instead of reading a value. *)
Lemma capability_queries_counterexample :
  Contract.configured_before (history amp0 [] heap0) = false
  /\ fst (Amplifier.get_channels amp0 heap0) <> Raise NotConfiguredError
  /\ fst (Amplifier.get_sampling_frequency amp0 heap0) <> Raise NotConfiguredError
  /\ Contract.state_after (history amp0 calls_configured heap0)
     = Contract.Configured
  /\ fst (Amplifier.get_channels amp0 (snd (run amp0 calls_configured heap0)))
     = Raise NotImplementedError
  /\ fst (Amplifier.get_sampling_frequency amp0
            (snd (run amp0 calls_configured heap0)))
     = Raise NotImplementedError.
Proof.
  split; [reflexivity|].
  split; [cbn; discriminate|].
  split; [cbn; discriminate|].
  repeat split.
Qed.

(** ** Polling *)

(** Claim C7, evaluated on the class.  [get_data()] returns [None] after any sequence of
    calls: not the pair of an array and a list of markers that its docstring
    announces, so the marker component is absent too. *)
Theorem get_data_returns_none_not_a_pair
    (self : Ref) (cs : list Call) (h : Heap) :
  exists v : Value,
    Amplifier.get_data self (snd (run self cs h)) = (Return v, snd (run self cs h))
    /\ v = VNone
    /\ is_data_and_markers v = false.
Proof.
  exists VNone. split; [apply pass_body_returns_none|]. split; reflexivity.
Qed.

(** ** Stopping *)




(** ** The availability probe *)

(** Claim C9.  [is_available()] takes no instance, gives the same outcome
    on every heap (the empty one, with no instance constructed, included;
    any heap reached by earlier calls included), and hands back the heap it
    was given: constructing an instance and configuring it, or making any
    calls on an existing one, goes the same whether or not the probe ran
    first.  (In the base class that one outcome is [NotImplementedError].) *)
Theorem is_available_is_state_independent_and_pure (h : Heap) :
  Amplifier.is_available h = (Raise NotImplementedError, h)
  /\ snd (Amplifier.is_available h) = h
  /\ fst (Amplifier.is_available h) = fst (Amplifier.is_available ∅)
  /\ (forall (self : Ref) (cs : list Call),
        fst (Amplifier.is_available (snd (run self cs h)))
        = fst (Amplifier.is_available ∅))
  /\ (forall cfg : Value,
        (Amplifier.new ≫= fun amp => Amplifier.configure amp cfg)
          (snd (Amplifier.is_available h))
        = (Amplifier.new ≫= fun amp => Amplifier.configure amp cfg) h)
  /\ (forall (self : Ref) (cs : list Call),
        run self cs (snd (Amplifier.is_available h)) = run self cs h).
Proof. repeat split. Qed.

(** * Beyond the lifecycle claims *)

(** ** Sequencing *)

Lemma bind_returned {A B : Type} (m : Py A) (k : A -> Py B)
    (h h' : Heap) (a : A) :
  m h = (Return a, h') -> (m ≫= k) h = k a h'.
Proof. intros Hm. unfold mbind, Py_bind. now rewrite Hm. Qed.

Lemma bind_raised {A B : Type} (m : Py A) (k : A -> Py B)
    (h h' : Heap) (e : Exception) :
  m h = (Raise e, h') -> (m ≫= k) h = (Raise e, h').
Proof. intros Hm. unfold mbind, Py_bind. now rewrite Hm. Qed.

(** ** Straight-line callers *)

(** Property X1.  A sequence of calls made without [try]/[except] runs to its end exactly
    when it holds no call of [get_channels], [get_sampling_frequency] or
    [is_available]; every call then returned [None].  Otherwise the sequence
    ends in [NotImplementedError].  Either way the heap is as before. *)
Theorem script_ends_at_first_query (self : Ref) (cs : list Call) (h : Heap) :
  script self cs h
  = (if forallb (fun c => negb (is_query c)) cs
     then Return (repeat VNone (length cs))
     else Raise NotImplementedError,
     h).
Proof.
  revert h; induction cs as [|c cs IH]; intros h.
  - reflexivity.
  - cbn [script forallb length repeat].
    unfold mbind, Py_bind. rewrite invoke_base.
    destruct c; cbn [base_outcome is_query negb andb]; try reflexivity;
      rewrite IH; destruct (forallb _ cs); reflexivity.
Qed.

(** ** The poll loop *)

Lemma poll_until_find
    (fuel : nat) (enough : nat -> Value -> bool) (self : Ref) (polled : nat)
    (h : Heap) :
  poll_until fuel enough self polled h
  = (Return (option_map (fun k => (k, VNone))
               (find (fun k => enough k VNone) (seq (S polled) fuel))),
     h).
Proof.
  revert polled; induction fuel as [|fuel IH]; intros polled.
  - reflexivity.
  - cbn [poll_until seq find].
    rewrite (bind_returned _ _ h h VNone) by apply pass_body_returns_none.
    destruct (enough (S polled) VNone); [reflexivity|apply IH].
Qed.

Lemma find_seq_first (P : nat -> bool) (start len k : nat) :
  (start <= k < start + len)%nat ->
  P k = true ->
  (forall j, (start <= j < k)%nat -> P j = false) ->
  find P (seq start len) = Some k.
Proof.
  revert start; induction len as [|len IH]; intros start Hk Pk Hlt.
  - lia.
  - cbn [seq find]. destruct (decide (start = k)) as [->|Hne].
    + now rewrite Pk.
    + rewrite (Hlt start) by lia. apply IH; [lia|exact Pk|].
      intros j Hj. apply Hlt. lia.
Qed.

Lemma find_seq_none (P : nat -> bool) (start len : nat) :
  (forall j, P j = false) -> find P (seq start len) = None.
Proof.
  intros HP. revert start; induction len as [|len IH]; intros start.
  - reflexivity.
  - cbn [seq find]. rewrite HP. apply IH.
Qed.

(** Property X2.  The poll loop is left at the first poll count its stop condition
    accepts with [None] as data, and [None] is the data it is left with:
    what [enough] would say of any other data never matters. *)
Theorem poll_loop_leaves_at_first_enough
    (fuel : nat) (enough : nat -> Value -> bool) (self : Ref) (k : nat)
    (h : Heap) :
  (1 <= k <= fuel)%nat ->
  enough k VNone = true ->
  (forall j, (1 <= j < k)%nat -> enough j VNone = false) ->
  poll_until fuel enough self 0%nat h = (Return (Some (k, VNone)), h).
Proof.
  intros Hk Ek Hfirst. rewrite poll_until_find.
  rewrite (find_seq_first (fun k => enough k VNone) 1 fuel k); auto with lia.
Qed.

Lemma poll_loop_leaves_at_first_enough_witness :
  poll_until 10 enough_after_three amp0 0%nat heap0
  = (Return (Some (3%nat, VNone)), heap0).
Proof.
  apply (poll_loop_leaves_at_first_enough 10 enough_after_three amp0 3 heap0).
  - lia.
  - reflexivity.
  - intros j Hj. unfold enough_after_three. apply Nat.leb_gt. lia.
Defined.

(** Property X3.  A caller whose stop condition never accepts [None] never leaves the
    poll loop: however many iterations it is given, it is still polling. *)
Theorem poll_loop_never_left_without_data
    (fuel : nat) (enough : nat -> Value -> bool) (self : Ref) (h : Heap) :
  (forall j, enough j VNone = false) ->
  poll_until fuel enough self 0%nat h = (Return None, h).
Proof.
  intros Hnever. rewrite poll_until_find.
  now rewrite (find_seq_none (fun k => enough k VNone) 1 fuel Hnever).
Qed.

Lemma poll_loop_never_left_without_data_witness :
  poll_until 1000 enough_when_data amp0 0%nat heap0 = (Return None, heap0).
Proof.
  apply (poll_loop_never_left_without_data 1000 enough_when_data amp0 heap0).
  intros j. reflexivity.
Defined.

(** ** The documented usage *)

(** Property X4.  The usage of the class docstring, run on the base class, never reaches
    its second session.  Once the first poll loop is left, the program ends
    in the [NotImplementedError] of [get_channels]; until then it is still
    polling.  The heap has gained the new instance, without attributes, and
    nothing else. *)
Theorem usage_ends_at_get_channels
    (fuel : nat) (config1 config2 : Value)
    (enough1 enough2 : nat -> Value -> bool) (h : Heap) :
  usage fuel config1 config2 enough1 enough2 h
  = (match find (fun k => enough1 k VNone) (seq 1 fuel) with
     | Some _ => Raise NotImplementedError
     | None => Return None
     end,
     <[fresh (dom h) := ∅]> h).
Proof.
  set (amp := fresh (dom h)). set (h1 := <[amp := ∅]> h).
  unfold usage.
  rewrite (bind_returned _ _ h h1 amp) by reflexivity.
  rewrite (bind_returned _ _ h1 h1 VNone) by apply pass_body_returns_none.
  rewrite (bind_returned _ _ h1 h1 VNone) by apply pass_body_returns_none.
  rewrite (bind_returned _ _ h1 h1 _ (poll_until_find _ _ _ _ _)).
  destruct (find _ (seq 1 fuel)) as [k|]; cbn [option_map]; [|reflexivity].
  rewrite (bind_returned _ _ h1 h1 VNone) by apply pass_body_returns_none.
  rewrite (bind_returned _ _ h1 h1 VNone) by apply pass_body_returns_none.
  apply bind_raised, raise_keeps_heap.
Qed.

(** ** Instances *)

(** Property X5.  The base class stores nothing on an instance.  After [Amplifier()] the
    new reference was not in use before, and whatever calls follow, on this
    or any other instance, the new instance still has no attribute and every
    object that was there before is as it was. *)
Theorem base_class_stores_nothing
    (h h1 : Heap) (amp self : Ref) (cs : list Call) :
  Amplifier.new h = (Return amp, h1) ->
  h !! amp = None
  /\ snd (run self cs h1) !! amp = Some ∅
  /\ forall r : Ref, r <> amp -> snd (run self cs h1) !! r = h !! r.
Proof.
  unfold Amplifier.new. intros Hnew.
  injection Hnew as Hamp Hh1. subst amp h1.
  rewrite run_frame.
  split; [|split].
  - apply not_elem_of_dom, is_fresh.
  - apply lookup_insert_eq.
  - intros r Hr. now apply lookup_insert_ne.
Qed.

Lemma base_class_stores_nothing_witness :
  heap0 !! 2%positive = None
  /\ snd (run amp0 calls_any_order (snd (Amplifier.new heap0))) !! 2%positive
     = Some ∅
  /\ forall r : Ref,
       r <> 2%positive ->
       snd (run amp0 calls_any_order (snd (Amplifier.new heap0))) !! r
       = heap0 !! r.
Proof.
  apply (base_class_stores_nothing
           heap0 (snd (Amplifier.new heap0)) 2%positive amp0 calls_any_order).
  reflexivity.
Defined.

(** Property X6.  What a sequence of calls answers depends only on which methods are
    called, in which order: not on the instance, not on what the heap holds,
    not on the configurations passed. *)
Theorem outcomes_depend_on_methods_only
    (a b : Ref) (cs cs' : list Call) (h h' : Heap) :
  Forall2 (fun c c' => same_method c c' = true) cs cs' ->
  fst (run a cs h) = fst (run b cs' h').
Proof.
  intros Hsame. rewrite !run_base. cbn [fst].
  induction Hsame as [|c c' cs cs' Hc _ IH]; [reflexivity|].
  cbn [map]. rewrite IH. f_equal.
  destruct c, c'; cbn in Hc; try discriminate Hc; reflexivity.
Qed.

Lemma outcomes_depend_on_methods_only_witness :
  fst (run amp0 [Configure cfg0; Start; GetChannels; GetData] heap0)
  = fst (run 7%positive [Configure (VInt 512); Start; GetChannels; GetData] ∅).
Proof.
  apply (outcomes_depend_on_methods_only amp0 7%positive
           [Configure cfg0; Start; GetChannels; GetData]
           [Configure (VInt 512); Start; GetChannels; GetData] heap0 ∅).
  repeat constructor.
Defined.
